(** * QRcode.py: the [QRCodeGenerator] wrapper class

    A shallow embedding of [src/QRcode.py].  The class keeps five rendering
    attributes on the instance, [set_properties] overrides any of them, and
    [generate] hands them to the [qrcode] package, saves the rendered image
    and (is meant to) return the absolute path of the file.

    The methods are written in a small effect monad [prog]: reading and
    writing an attribute of [self], raising an exception, and calling into
    the wrapped packages.  The packages themselves are not part of the
    program; every theorem that does not need their behaviour quantifies over
    an arbitrary [handler] for them. *)

From Stdlib Require Import ZArith Lia Ascii.
From stdpp Require Import base option list strings gmap.

Local Open Scope Z_scope.

(** ** Python values and exceptions *)

(** The values an attribute of the generator, or a keyword argument of
    [set_properties], can hold: [None], an integer or a string. *)
Inductive pyval : Type :=
| PyNone
| PyInt (n : Z)
| PyStr (s : string).

#[global] Instance pyval_eq_dec : EqDecision pyval.
Proof. solve_decision. Defined.

(** [v is not None] *)
Definition is_not_None (v : pyval) : bool :=
  match v with
  | PyNone => false
  | _ => true
  end.

(** The exceptions that can surface from a method of the class: the two the
    interpreter raises for a name or an attribute that does not exist, and
    those of the wrapped packages. *)
Inductive exn : Type :=
| NameError (name : string)
| AttributeError (name : string)
| TypeError
| ValueError
| DataOverflowError
| OSError.

#[global] Instance exn_eq_dec : EqDecision exn.
Proof. solve_decision. Defined.

(** [qrcode.constants]: the four error-correction levels. *)
Inductive error_correction_level : Type :=
| ERROR_CORRECT_L
| ERROR_CORRECT_M
| ERROR_CORRECT_Q
| ERROR_CORRECT_H.

#[global] Instance error_correction_level_eq_dec : EqDecision error_correction_level.
Proof. solve_decision. Defined.

(** A call that can raise gives back [exn + A]; [x ← m; k] stops at the
    first exception. *)
#[global] Instance exn_bind : MBind (sum exn) :=
  fun A B f m =>
    match m with
    | inl e => inl e
    | inr a => f a
    end.

(** ** The module's global names

    [import qrcode], [from PIL import Image] and the [class] statement are
    the only bindings made at module level before [generate] can run. *)
Definition module_globals : list string :=
  ["qrcode"; "Image"; "QRCodeGenerator"].

(** ** Programs *)

Section Programs.

(** The encoder object ([qrcode.QRCode]) and the rendered image are opaque
    to the wrapper. *)
Context {QR IMG : Type}.

(** The calls [generate] makes into the wrapped packages, indexed by the
    type of what they give back.  [add_data] and [make] mutate the encoder;
    the mutated encoder is passed on explicitly. *)
Inductive libcall : Type -> Type :=
| QRCode (version : pyval) (error_correction : error_correction_level)
         (box_size border : pyval) : libcall QR
| add_data (qr : QR) (data : string) : libcall QR
| make (qr : QR) (fit : bool) : libcall QR
| make_image (qr : QR) (fill_color back_color : pyval) : libcall IMG
| save (img : IMG) (output_file : string) : libcall unit
| abspath (path : string) : libcall string.

Inductive prog (A : Type) : Type :=
| Ret (a : A)
| Raise (e : exn)
| GetAttr (name : string) (k : pyval -> prog A)
| SetAttr (name : string) (value : pyval) (k : prog A)
| Call {R : Type} (c : libcall R) (k : R -> prog A).

#[global] Arguments Ret {A} a.
#[global] Arguments Raise {A} e.
#[global] Arguments GetAttr {A} name k.
#[global] Arguments SetAttr {A} name value k.
#[global] Arguments Call {A R} c k.

Fixpoint bind {A B : Type} (p : prog A) (f : A -> prog B) : prog B :=
  match p with
  | Ret a => f a
  | Raise e => Raise e
  | GetAttr name k => GetAttr name (fun v => bind (k v) f)
  | SetAttr name value k => SetAttr name value (bind k f)
  | Call c k => Call c (fun r => bind (k r) f)
  end.

(** [self.name] *)
Definition getattr (name : string) : prog pyval := GetAttr name Ret.

(** [self.name = value] *)
Definition setattr (name : string) (value : pyval) : prog unit :=
  SetAttr name value (Ret tt).

Definition call {R : Type} (c : libcall R) : prog R := Call c Ret.

(** Evaluating a global name: a name the module never bound raises
    [NameError]. *)
Definition global (name : string) : prog unit :=
  if bool_decide (name ∈ module_globals) then Ret tt
  else Raise (NameError name).

(** [if c: body] *)
Definition when (c : bool) (body : prog unit) : prog unit :=
  if c then body else Ret tt.

End Programs.

Arguments libcall : clear implicits.
Arguments prog : clear implicits.

#[global] Instance prog_ret {QR IMG : Type} : MRet (prog QR IMG) :=
  fun A a => Ret a.
#[global] Instance prog_bind {QR IMG : Type} : MBind (prog QR IMG) :=
  fun A B f p => bind p f.

(** ** The class *)

Section QRCodeGenerator.

Context {QR IMG : Type}.
Local Abbreviation prog := (prog QR IMG).

Definition __init__ : prog unit :=
  setattr "size" (PyInt 4);;
  setattr "border" (PyInt 4);;
  setattr "fill_color" (PyStr "black");;
  setattr "back_color" (PyStr "white");;
  setattr "box_size" (PyInt 10).

(** A keyword argument that the caller leaves out is bound to its default,
    [None]. *)
Definition set_properties
    (size border fill_color back_color box_size : option pyval) : prog unit :=
  let size := default PyNone size in
  let border := default PyNone border in
  let fill_color := default PyNone fill_color in
  let back_color := default PyNone back_color in
  let box_size := default PyNone box_size in
  when (is_not_None size) (setattr "size" size);;
  when (is_not_None border) (setattr "border" border);;
  when (is_not_None fill_color) (setattr "fill_color" fill_color);;
  when (is_not_None back_color) (setattr "back_color" back_color);;
  when (is_not_None box_size) (setattr "box_size" box_size).

Definition generate (data : string) (output_file : option string) : prog string :=
  let output_file := default "qrcode5.png" output_file in
  global "qrcode";;
  version ← getattr "size";
  global "qrcode";;
  box_size ← getattr "box_size";
  border ← getattr "border";
  qr ← call (QRCode version ERROR_CORRECT_H box_size border);
  qr ← call (add_data qr data);
  qr ← call (make qr true);
  fill_color ← getattr "fill_color";
  back_color ← getattr "back_color";
  img ← call (make_image qr fill_color back_color);
  call (save img output_file);;
  global "os";;
  call (abspath output_file).

End QRCodeGenerator.

(** ** Running a program

    A method runs against the instance dictionary of [self] and a world [W]
    that belongs to the wrapped packages (the file system, for one).  A
    [handler] says what a call into the packages gives back, or raises, and
    what it does to the world.  An exception ends the run where it is raised:
    the class has no [try] statement, so [prog] has no node for one. *)

Record outcome (A W : Type) : Type := Outcome {
  result : exn + A;
  self_after : gmap string pyval;
  world_after : W
}.

Arguments Outcome {A W} result self_after world_after.
Arguments result {A W} o.
Arguments self_after {A W} o.
Arguments world_after {A W} o.

Section Run.

Context {QR IMG : Type}.
Local Abbreviation prog := (prog QR IMG).
Local Abbreviation libcall := (libcall QR IMG).

Definition handler (W : Type) : Type :=
  forall R : Type, libcall R -> W -> (exn + R) * W.

Fixpoint run {W A : Type} (h : handler W) (p : prog A)
    (self : gmap string pyval) (w : W) : outcome A W :=
  match p with
  | Ret a => Outcome (inr a) self w
  | Raise e => Outcome (inl e) self w
  | GetAttr name k =>
      match self !! name with
      | Some v => run h (k v) self w
      | None => Outcome (inl (AttributeError name)) self w
      end
  | SetAttr name value k => run h k (<[name := value]> self) w
  | Call c k =>
      match h _ c w with
      | (inl e, w') => Outcome (inl e) self w'
      | (inr r, w') => run h (k r) self w'
      end
  end.

(** *** Recording the calls

    [logged h] answers as [h] does and appends each call, with the exception
    it raised if any, to a log kept beside the world. *)
Inductive event : Type :=
| Event {R : Type} (c : libcall R) (raised : option exn).

Definition raised_by (ev : event) : option exn :=
  match ev with
  | Event _ r => r
  end.

Definition raised_of {R : Type} (r : exn + R) : option exn :=
  match r with
  | inl e => Some e
  | inr _ => None
  end.

Definition logged {W : Type} (h : handler W) : handler (W * list event) :=
  fun R c wl =>
    let (r, w') := h R c wl.1 in
    (r, (w', wl.2 ++ [Event c (raised_of r)])).

(** The calls a method makes when it runs from [self] in world [w]. *)
Definition calls {W A : Type} (h : handler W) (p : prog A)
    (self : gmap string pyval) (w : W) : list event :=
  (world_after (run (logged h) p self (w, []))).2.

(** The encoder constructions, and the images handed to [save] with the path
    and the exception raised if any, read off a log. *)
Definition constructions (log : list event)
    : list (pyval * error_correction_level * pyval * pyval) :=
  flat_map (fun ev =>
    match ev with
    | Event (QRCode version error_correction box_size border) _ =>
        [(version, error_correction, box_size, border)]
    | _ => []
    end) log.

Definition saved (log : list event) : list (IMG * string * option exn) :=
  flat_map (fun ev =>
    match ev with
    | Event (save img output_file) raised => [(img, output_file, raised)]
    | _ => []
    end) log.

End Run.

(** ** The wrapped packages

    What the class calls is outside the repository.  A [library] gives each
    call a meaning in which the encoder calls are functions of the object
    they are made on and of their arguments, and only [save] touches the
    world. *)

Record library (QR IMG W : Type) : Type := Library {
  lib_QRCode : pyval -> error_correction_level -> pyval -> pyval -> exn + QR;
  lib_add_data : QR -> string -> exn + QR;
  lib_make : QR -> bool -> exn + QR;
  lib_make_image : QR -> pyval -> pyval -> exn + IMG;
  lib_save : IMG -> string -> W -> (exn + unit) * W;
  lib_abspath : string -> W -> string
}.

Arguments Library {QR IMG W}.
Arguments lib_QRCode {QR IMG W} l.
Arguments lib_add_data {QR IMG W} l.
Arguments lib_make {QR IMG W} l.
Arguments lib_make_image {QR IMG W} l.
Arguments lib_save {QR IMG W} l.
Arguments lib_abspath {QR IMG W} l.

Definition handler_of {QR IMG W : Type} (L : library QR IMG W) : handler W :=
  fun R c w =>
    match c in libcall _ _ R return (exn + R) * W with
    | QRCode version error_correction box_size border =>
        (lib_QRCode L version error_correction box_size border, w)
    | add_data qr data => (lib_add_data L qr data, w)
    | make qr fit => (lib_make L qr fit, w)
    | make_image qr fill_color back_color =>
        (lib_make_image L qr fill_color back_color, w)
    | save img output_file => lib_save L img output_file w
    | abspath path => (inr (lib_abspath L path w), w)
    end.

(** *** A reference model of the packages

    The behaviour of [qrcode.QRCode] and of the image's [save], as their
    documentation gives it, as far as the class depends on it.  A symbol has
    a version between 1 and 40; [make(fit=True)] looks for the smallest
    version, from the one the encoder was constructed with, whose capacity at
    the encoder's error-correction level holds the payload.  An image is kept
    as what determines its pixels.

    Three things are left to the packages: how many bits a payload takes at
    a version ([payload_bits], which depends on the encoding mode chosen for
    it), how many a symbol holds ([bit_limit]), and which values name a
    colour ([valid_color]). *)

Record encoder : Type := Encoder {
  qr_version : option Z;
  qr_error_correction : error_correction_level;
  qr_box_size : Z;
  qr_border : Z;
  qr_data_list : list string;
  qr_made : bool
}.

Record image : Type := Image {
  img_version : Z;
  img_error_correction : error_correction_level;
  img_box_size : Z;
  img_border : Z;
  img_data_list : list string;
  img_fill_color : pyval;
  img_back_color : pyval
}.

#[global] Instance image_eq_dec : EqDecision image.
Proof. solve_decision. Defined.

Record world : Type := World {
  files : gmap string image;
  read_only : list string;
  cwd : string
}.



(** [int(v)] for the values the model knows; text is taken not to spell a
    number. *)
Definition int (v : pyval) : exn + Z :=
  match v with
  | PyInt n => inr n
  | PyNone => inl TypeError
  | PyStr _ => inl ValueError
  end.

Definition check_version (version : Z) : exn + unit :=
  if bool_decide (version < 1 ∨ 40 < version) then inl ValueError else inr tt.

Definition _check_box_size (size : pyval) : exn + unit :=
  match int size with
  | inl e => inl e
  | inr n => if bool_decide (n <= 0) then inl ValueError else inr tt
  end.

Definition _check_border (size : pyval) : exn + unit :=
  match int size with
  | inl e => inl e
  | inr n => if bool_decide (n < 0) then inl ValueError else inr tt
  end.

Section Packages.

Variable payload_bits : string -> Z -> Z.
Variable bit_limit : error_correction_level -> Z -> Z.
Variable valid_color : pyval -> bool.

Definition needed_bits (data_list : list string) (version : Z) : Z :=
  foldr (fun data acc => payload_bits data version + acc) 0 data_list.

Definition fits (error_correction : error_correction_level)
    (data_list : list string) (version : Z) : bool :=
  bool_decide (needed_bits data_list version <= bit_limit error_correction version).

(** The smallest version from [start] up to 40 that holds the payload,
    looking at no more than [n] versions. *)
Fixpoint search_fit (n : nat) (error_correction : error_correction_level)
    (data_list : list string) (start : Z) : option Z :=
  match n with
  | O => None
  | S n' =>
      if bool_decide (40 < start) then None
      else if fits error_correction data_list start then Some start
      else search_fit n' error_correction data_list (start + 1)
  end.

(** [best_fit(start)]: the encoder's version is set to the smallest one
    from [start] that holds the payload, or to 41 when none up to 40 does.
    Assigning the version checks it, so 41 is refused there, ahead of the
    test that would raise [DataOverflowError]. *)
Definition best_fit (error_correction : error_correction_level)
    (data_list : list string) (start : option Z) : exn + Z :=
  let start := default 1 start in
  _ ← check_version start;
  let version := default 41 (search_fit 40 error_correction data_list start) in
  _ ← check_version version;
  if bool_decide (version = 41) then inl DataOverflowError else inr version.

Definition ref_QRCode (version : pyval) (error_correction : error_correction_level)
    (box_size border : pyval) : exn + encoder :=
  _ ← _check_box_size box_size;
  _ ← _check_border border;
  version ← match version with
            | PyNone => inr None
            | _ => n ← int version; _ ← check_version n; inr (Some n)
            end;
  box_size ← int box_size;
  border ← int border;
  inr (Encoder version error_correction box_size border [] false).

Definition ref_add_data (qr : encoder) (data : string) : exn + encoder :=
  inr (Encoder (qr_version qr) (qr_error_correction qr) (qr_box_size qr)
         (qr_border qr) (qr_data_list qr ++ [data]) false).

Definition ref_make (qr : encoder) (fit : bool) : exn + encoder :=
  version ←
    (if fit || bool_decide (qr_version qr = None) then
       best_fit (qr_error_correction qr) (qr_data_list qr) (qr_version qr)
     else
       let version := default 1 (qr_version qr) in
       if fits (qr_error_correction qr) (qr_data_list qr) version
       then inr version else inl DataOverflowError);
  inr (Encoder (Some version) (qr_error_correction qr) (qr_box_size qr)
         (qr_border qr) (qr_data_list qr) true).

Definition ref_make_image (qr : encoder) (fill_color back_color : pyval)
    : exn + image :=
  qr ← (if qr_made qr then inr qr else ref_make qr true);
  if valid_color fill_color && valid_color back_color then
    inr (Image (default 1 (qr_version qr)) (qr_error_correction qr)
           (qr_box_size qr) (qr_border qr) (qr_data_list qr)
           fill_color back_color)
  else inl ValueError.

Definition ref_save (img : image) (output_file : string) (w : world)
    : (exn + unit) * world :=
  if bool_decide (output_file ∈ read_only w) then (inl OSError, w)
  else (inr tt, World (<[output_file := img]> (files w)) (read_only w) (cwd w)).

Definition ref_abspath (path : string) (w : world) : string :=
  match path with
  | String "/"%char _ => path
  | _ => cwd w +:+ "/" +:+ path
  end.

Definition packages : library encoder image world :=
  Library ref_QRCode ref_add_data ref_make ref_make_image ref_save ref_abspath.

End Packages.

(** *** The reference model at level H, for text in byte mode

    Data codewords of a symbol at error-correction level H, by version (the
    standard's table of symbol capacities).  [generate] asks for no other
    level, and only this row of the bit limits is filled in. *)
Definition data_codewords_H (version : Z) : Z :=
  match version with
  | 1 => 9 | 2 => 16 | 3 => 26 | 4 => 36 | 5 => 46
  | 6 => 60 | 7 => 66 | 8 => 86 | 9 => 100 | 10 => 122
  | 11 => 140 | 12 => 158 | 13 => 180 | 14 => 197 | 15 => 223
  | 16 => 253 | 17 => 283 | 18 => 313 | 19 => 341 | 20 => 385
  | 21 => 406 | 22 => 442 | 23 => 464 | 24 => 514 | 25 => 538
  | 26 => 596 | 27 => 628 | 28 => 661 | 29 => 701 | 30 => 745
  | 31 => 793 | 32 => 845 | 33 => 901 | 34 => 961 | 35 => 986
  | 36 => 1054 | 37 => 1096 | 38 => 1142 | 39 => 1222 | 40 => 1276
  | _ => 0
  end.

Definition bit_limit_H (error_correction : error_correction_level)
    (version : Z) : Z :=
  match error_correction with
  | ERROR_CORRECT_H => 8 * data_codewords_H version
  | _ => 0
  end.

(** A payload with a character outside the digits and the alphanumeric set
    (a lower-case letter, say) is encoded in byte mode: a 4-bit mode
    indicator, a character count of 8 bits up to version 9 and of 16 bits
    from version 10, and 8 bits for each byte. *)
Definition byte_mode_bits (data : string) (version : Z) : Z :=
  4 + (if bool_decide (version < 10) then 8 else 16)
    + 8 * Z.of_nat (String.length data).

(** A few of the colour names the imaging package knows. *)
Definition named_color (v : pyval) : bool :=
  match v with
  | PyStr s => bool_decide (s ∈ ["black"; "white"; "red"; "green"; "blue"])
  | _ => false
  end.

Definition reference : library encoder image world :=
  packages byte_mode_bits bit_limit_H named_color.

(** A fresh instance, after [QRCodeGenerator()]. *)
Definition new_generator : gmap string pyval :=
  self_after (run (handler_of reference) __init__ ∅ (World ∅ [] "/home/user")).

(** ** The configuration, for the statements below *)

Definition fields : list string :=
  ["size"; "border"; "fill_color"; "back_color"; "box_size"].

(** Every field is set, and to something other than [None]. *)
Definition configured (self : gmap string pyval) : Prop :=
  Forall (fun name => is_Some (self !! name) ∧ self !! name ≠ Some PyNone) fields.

#[global] Instance configured_dec self : Decision (configured self).
Proof. unfold configured. apply _. Defined.

(** What [set_properties] does to the instance for one keyword argument. *)
Definition override (name : string) (arg : option pyval)
    (self : gmap string pyval) : gmap string pyval :=
  match arg with
  | Some PyNone | None => self
  | Some value => <[name := value]> self
  end.

(** A world to run examples in: no file yet, nothing write-protected. *)
Definition empty_world : world := World ∅ [] "/home/user".

(** An explicit [None] is read as an argument left out. *)
Definition omit_None (arg : option pyval) : option pyval :=
  match arg with
  | Some PyNone => None
  | _ => arg
  end.

(** The payload the script at the end of the module passes to [generate],
    on a generator it has just constructed and with no output path. *)
Definition script_data : string :=
  "https://encrypted-tbn0.gstatic.com/images?q=tbn:ANd9GcTlYxTsrHiM5jFyET2Cec3NTSRY7vMKIsQ1XQ&s".



(** ** The script at the end of the module

    [if __name__ == "__main__":] constructs a generator, calls [generate] on
    it with [script_data] and no output path, and prints the path it gets
    back.  An exception that nothing catches ends the script. *)

Record script_result (W : Type) : Type := ScriptResult {
  uncaught : option exn;
  stdout : list string;
  script_world : W
}.

Arguments ScriptResult {W} uncaught stdout script_world.
Arguments uncaught {W} s.
Arguments stdout {W} s.
Arguments script_world {W} s.

Definition main {QR IMG W : Type} (h : @handler QR IMG W) (__name__ : string)
    (w : W) : script_result W :=
  if bool_decide (__name__ = "__main__") then
    let o := run h __init__ ∅ w in
    match result o with
    | inl e => ScriptResult (Some e) [] (world_after o)
    | inr _ =>
        let generator := self_after o in
        let o := run h (generate script_data None) generator (world_after o) in
        match result o with
        | inl e => ScriptResult (Some e) [] (world_after o)
        | inr output_path =>
            ScriptResult None ["QR code created at: " +:+ output_path]
              (world_after o)
        end
    end
  else ScriptResult None [] w.

(** ** More to read off a log *)

Section Observers.

Context {QR IMG : Type}.

(** The name of the call an event records. *)
Definition call_name (ev : @event QR IMG) : string :=
  match ev with
  | Event (QRCode _ _ _ _) _ => "QRCode"
  | Event (add_data _ _) _ => "add_data"
  | Event (make _ _) _ => "make"
  | Event (make_image _ _ _) _ => "make_image"
  | Event (save _ _) _ => "save"
  | Event (abspath _) _ => "abspath"
  end.

(** The payloads handed to [add_data], the [fit] flags handed to [make] and
    the colours handed to [make_image]. *)
Definition payloads (log : list (@event QR IMG)) : list string :=
  flat_map (fun ev =>
    match ev with
    | Event (add_data _ data) _ => [data]
    | _ => []
    end) log.

Definition fit_flags (log : list (@event QR IMG)) : list bool :=
  flat_map (fun ev =>
    match ev with
    | Event (make _ fit) _ => [fit]
    | _ => []
    end) log.

Definition colors (log : list (@event QR IMG)) : list (pyval * pyval) :=
  flat_map (fun ev =>
    match ev with
    | Event (make_image _ fill_color back_color) _ => [(fill_color, back_color)]
    | _ => []
    end) log.

End Observers.

(** ** Keyword arguments, for the statements below *)


(** One argument in place of the same argument in two calls in a row: the
    second if it is given, the first otherwise. *)
Definition then_arg (first second : option pyval) : option pyval :=
  match second with
  | Some PyNone | None => first
  | Some _ => second
  end.

(** An argument other than [None] is given. *)
Definition given (arg : option pyval) : bool :=
  is_not_None (default PyNone arg).

(** * Properties *)

(** ** Generic facts about running programs *)

Section RunFacts.

Context {QR IMG W : Type}.
Implicit Types (h : @handler QR IMG W) (self : gmap string pyval) (w : W).

(** Running [x ← p; f x]: run [p]; an exception ends the run, a value is
    handed to [f]. *)
Lemma run_bind {A B : Type} h (p : prog QR IMG A) (f : A -> prog QR IMG B) self w :
  run h (p ≫= f) self w =
  match result (run h p self w) with
  | inl e => Outcome (inl e) (self_after (run h p self w)) (world_after (run h p self w))
  | inr a => run h (f a) (self_after (run h p self w)) (world_after (run h p self w))
  end.
Proof.
  unfold mbind, prog_bind.
  revert self w; induction p as [a|e|name k IH|name value k IH|R c k IH];
    intros self w; simpl; try done.
  - destruct (self !! name); simpl; [apply IH | done].
  - destruct (h R c w) as [[e|r] w']; simpl; [done | apply IH].
Qed.

Lemma global_qrcode : @global QR IMG "qrcode" = Ret tt.
Proof. reflexivity. Qed.

Lemma global_os : @global QR IMG "os" = Raise (NameError "os").
Proof. reflexivity. Qed.

(** A method that only assigns attributes makes no call, leaves the world
    alone and returns. *)
Lemma run_setattr h name value self w :
  run h (setattr name value) self w = Outcome (inr tt) (<[name := value]> self) w.
Proof. reflexivity. Qed.

End RunFacts.

Section Configuration.

Context {QR IMG W : Type}.
Implicit Types (h : @handler QR IMG W) (self : gmap string pyval) (w : W).

Lemma run_when_setattr h name arg self w :
  run h (when (is_not_None (default PyNone arg)) (setattr name (default PyNone arg))) self w
  = Outcome (inr tt) (override name arg self) w.
Proof. by destruct arg as [[]|]. Qed.

Lemma run_set_properties h size border fill_color back_color box_size self w :
  run h (set_properties size border fill_color back_color box_size) self w
  = Outcome (inr tt)
      (override "box_size" box_size
        (override "back_color" back_color
          (override "fill_color" fill_color
            (override "border" border
              (override "size" size self))))) w.
Proof.
  unfold set_properties.
  repeat (rewrite run_bind, run_when_setattr; simpl).
  apply run_when_setattr.
Qed.

Lemma lookup_override name arg self k :
  override name arg self !! k =
  match arg with
  | Some PyNone | None => self !! k
  | Some value => if decide (name = k) then Some value else self !! k
  end.
Proof.
  destruct arg as [[]|]; simpl; try done; apply lookup_insert.
Qed.

Lemma lookup_override_ne name arg self k :
  name ≠ k -> override name arg self !! k = self !! k.
Proof.
  intros Hne. rewrite lookup_override.
  destruct arg as [[]|]; try done; by rewrite decide_False.
Qed.

(** One keyword argument never turns a field into [None], and never removes
    one. *)
Lemma override_None_inv name arg self k :
  override name arg self !! k = Some PyNone -> self !! k = Some PyNone.
Proof.
  rewrite lookup_override.
  destruct arg as [[]|]; try done; by case_decide.
Qed.

Lemma override_is_Some name arg self k :
  is_Some (self !! k) -> is_Some (override name arg self !! k).
Proof.
  rewrite lookup_override.
  destruct arg as [[]|]; try done; by case_decide.
Qed.

End Configuration.

Section ConfigurationClaims.

Context {QR IMG W : Type}.
Implicit Types (h : @handler QR IMG W) (self : gmap string pyval) (w : W).

(** C3. A freshly constructed generator has exactly the default
    configuration: size (symbol version) 4, border 4, fill colour "black",
    background colour "white", box size 10; constructing it returns, makes no
    call into the packages and leaves the world as it was. *)
Theorem init_defaults h w :
  let o := run h __init__ ∅ w in
  self_after o = {[ "size" := PyInt 4; "border" := PyInt 4;
                    "fill_color" := PyStr "black";
                    "back_color" := PyStr "white";
                    "box_size" := PyInt 10 ]}
  ∧ result o = inr tt ∧ world_after o = w.
Proof.
  simpl. split; [|done].
  apply map_eq; intros name.
  rewrite !lookup_insert, lookup_singleton, lookup_empty.
  repeat case_decide; by simplify_eq.
Qed.

(** C4. [set_properties] called with any subset of the five fields: a field
    given a value takes that value, a field left out keeps the value it had,
    every other attribute of the instance is untouched, and nothing else
    happens (the call returns, the world is unchanged and no call into the
    packages is made). *)
Theorem set_properties_frame h self w size border fill_color back_color box_size :
  let p := set_properties size border fill_color back_color box_size in
  let o := run h p self w in
  let given := [("size", size); ("border", border); ("fill_color", fill_color);
                ("back_color", back_color); ("box_size", box_size)] in
  (∀ name value, (name, Some value) ∈ given -> value ≠ PyNone ->
     self_after o !! name = Some value)
  ∧ (∀ name, (name, None) ∈ given -> self_after o !! name = self !! name)
  ∧ (∀ name, name ∉ fields -> self_after o !! name = self !! name)
  ∧ result o = inr tt ∧ world_after o = w ∧ calls h p self w = [].
Proof.
  intros p o given. subst p o given. unfold calls.
  rewrite !run_set_properties. simpl.
  split; [|split; [|split]]; [| | |done].
  - intros name value Hin Hv.
    repeat (apply elem_of_cons in Hin as [Hin|Hin]);
      [..|by apply elem_of_nil in Hin];
      injection Hin as -> <-;
      repeat (rewrite lookup_override_ne by done);
      rewrite lookup_override; destruct value; try done;
      by rewrite decide_True.
  - intros name Hin.
    repeat (apply elem_of_cons in Hin as [Hin|Hin]);
      [..|by apply elem_of_nil in Hin];
      injection Hin as -> <-;
      repeat (rewrite lookup_override_ne by done);
      rewrite lookup_override;
      by repeat (rewrite lookup_override_ne by done).
  - intros name Hin. unfold fields in Hin.
    repeat (rewrite lookup_override_ne; [|intros <-; apply Hin; set_solver]).
    done.
Qed.

(** C7. Every field holds a value other than [None] once the generator is
    constructed, and [set_properties] keeps it so whatever it is called
    with. *)
Theorem configured_invariant h w :
  (∀ self, configured (self_after (run h __init__ self w)))
  ∧ (∀ self size border fill_color back_color box_size,
       configured self ->
       configured (self_after
         (run h (set_properties size border fill_color back_color box_size) self w))).
Proof.
  split.
  - intros self. simpl. unfold configured, fields.
    repeat (apply Forall_cons; split;
      [repeat (rewrite lookup_insert; case_decide; try done)|]).
    by apply Forall_nil.
  - intros self size border fill_color back_color box_size Hc.
    rewrite run_set_properties. simpl.
    unfold configured in *. eapply Forall_impl; [exact Hc|].
    intros name [Hs Hn]. simpl in *. split.
    + by do 5 apply override_is_Some.
    + intros Hnone. apply Hn. by do 5 apply override_None_inv in Hnone.
Qed.

(** C10. Passing [None] for an argument of [set_properties] is the same
    program as leaving the argument out, and the setter never makes a field
    [None]: a field that is [None] afterwards was [None] before. *)
Theorem explicit_None_is_omitted :
  (∀ size border fill_color back_color box_size,
     @set_properties QR IMG size border fill_color back_color box_size
     = set_properties (omit_None size) (omit_None border) (omit_None fill_color)
         (omit_None back_color) (omit_None box_size))
  ∧ (∀ h self w size border fill_color back_color box_size name,
       self_after
         (run h (set_properties size border fill_color back_color box_size) self w)
         !! name = Some PyNone ->
       self !! name = Some PyNone).
Proof.
  split.
  - by intros [[]|] [[]|] [[]|] [[]|] [[]|].
  - intros h self w size border fill_color back_color box_size name.
    rewrite run_set_properties. simpl.
    intros Hnone. by do 5 apply override_None_inv in Hnone.
Qed.

End ConfigurationClaims.

Section GenerateClaims.

Context {QR IMG W : Type}.
Implicit Types (h : @handler QR IMG W) (self : gmap string pyval) (w : W).

(** Logging the calls changes nothing else about a run. *)
Lemma run_logged {A : Type} h (p : prog QR IMG A) self w log :
  let o := run h p self w in
  let o' := run (logged h) p self (w, log) in
  result o' = result o ∧ self_after o' = self_after o
  ∧ (world_after o').1 = world_after o.
Proof.
  revert self w log; induction p as [a|e|name k IH|name value k IH|R c k IH];
    intros self w log; simpl.
  - done.
  - done.
  - destruct (self !! name); simpl; [apply IH | done].
  - apply IH.
  - unfold logged at 1 3 5; simpl.
    destruct (h R c w) as [[e|r] w']; simpl; [done | apply IH].
Qed.

(** Names the logged run of [generate] in the goal and splits it into the
    cases of what each attribute lookup finds and of what each call gives
    back. *)
Ltac generate_cases :=
  match goal with
  | |- context [run (logged ?h) (generate ?d ?f) ?s ?w0] =>
      let o := fresh "o" in
      let Ho := fresh "Ho" in
      remember (run (logged h) (generate d f) s w0) as o eqn:Ho;
      unfold generate in Ho;
      rewrite ?global_qrcode, ?global_os in Ho;
      unfold mbind, prog_bind in Ho; simpl in Ho;
      repeat first
        [ match goal with
          | H : ?m !! ?k = _ |- _ => rewrite H in Ho
          end
        | match type of Ho with
          | context [logged ?h' ?R ?c ?w'] =>
              unfold logged at 1 in Ho; simpl in Ho;
              destruct (h' R c _) as [[?|?] ?]; simpl in Ho
          | context [match ?m !! ?k with Some _ => _ | None => _ end] =>
              destruct (m !! k) eqn:?; simpl in Ho
          end ];
      subst o; simpl
  end.

(** C5. Whenever [generate] gets as far as constructing the encoder, it
    constructs it once, with the fixed level [ERROR_CORRECT_H] and with the
    version, box size and border the instance holds at that moment. *)
Theorem generate_constructs_with_H h self w data output_file version box_size border :
  self !! "size" = Some version ->
  self !! "box_size" = Some box_size ->
  self !! "border" = Some border ->
  constructions (calls h (generate data output_file) self w)
  = [(version, ERROR_CORRECT_H, box_size, border)].
Proof.
  intros Hv Hb Hd. unfold calls. generate_cases; done.
Qed.

(** C8. An exception raised by a call into the packages is what [generate]
    raises, unchanged; the failing call is the last one made (nothing is
    caught, retried or recovered from) and the only one that raised.  The
    exceptions that come out of [generate] are those of the packages' calls
    and the interpreter's own for a missing name or attribute: the class
    raises none of its own. *)
Theorem generate_propagates h self w data output_file :
  let o := run h (generate data output_file) self w in
  let log := calls h (generate data output_file) self w in
  (∀ e, e ∈ omap raised_by log ->
     result o = inl e ∧ raised_by <$> last log = Some (Some e)
     ∧ omap raised_by log = [e])
  ∧ (∀ e, result o = inl e ->
       e ∈ omap raised_by log ∨ e = NameError "os"
       ∨ ∃ name, e = AttributeError name).
Proof.
  intros o log; subst o log. unfold calls.
  destruct (run_logged h (generate data output_file) self w []) as (<- & _ & _).
  split; intros e; generate_cases.
  all: try (intros Hin; by apply elem_of_nil in Hin).
  all: try (intros Hin; apply list_elem_of_singleton in Hin as ->; done).
  all: intros [= <-]; eauto.
  all: left; apply list_elem_of_here.
Qed.

(** [generate] never returns a value: every path through it ends in an
    exception. *)
Lemma generate_never_returns h self w data output_file :
  ∃ e, result (run h (generate data output_file) self w) = inl e.
Proof.
  destruct (run_logged h (generate data output_file) self w []) as (<- & _ & _).
  generate_cases; eauto.
Qed.

(** C1. The code at the point where the claim expects the absolute path:
    [generate] raises on every input, and when the image has been encoded and
    saved without error the exception is [NameError] for the name [os], which
    the module never imports. *)
Theorem generate_raises_after_saving h self w data output_file :
  let o := run h (generate data output_file) self w in
  (∃ e, result o = inl e)
  ∧ (∀ img path, (img, path, None) ∈ saved (calls h (generate data output_file) self w) ->
       result o = inl (NameError "os")).
Proof.
  intros o; subst o. split; [apply generate_never_returns|].
  unfold calls.
  destruct (run_logged h (generate data output_file) self w []) as (<- & _ & _).
  intros img path. generate_cases.
  all: try (intros Hin; by apply elem_of_nil in Hin).
  all: try (intros Hin; by apply list_elem_of_singleton in Hin).
Qed.

(** C9. With [output_file] left out, on an instance that holds the five
    fields and with encoder calls that return, [generate] hands the rendered
    image to [save] for the path ["qrcode5.png"], once, and leaves the world
    as that [save] leaves it.  The path is the same whatever the instance
    holds and whatever the packages do: leaving [output_file] out is the same
    program as passing ["qrcode5.png"], and no run saves anywhere else or
    more than once. *)
Theorem generate_default_output_file h self w data
    version box_size border fill_color back_color qr qr1 qr2 img w1 w2 w3 w4 :
  self !! "size" = Some version ->
  self !! "box_size" = Some box_size ->
  self !! "border" = Some border ->
  self !! "fill_color" = Some fill_color ->
  self !! "back_color" = Some back_color ->
  h _ (QRCode version ERROR_CORRECT_H box_size border) w = (inr qr, w1) ->
  h _ (add_data qr data) w1 = (inr qr1, w2) ->
  h _ (make qr1 true) w2 = (inr qr2, w3) ->
  h _ (make_image qr2 fill_color back_color) w3 = (inr img, w4) ->
  let written := h _ (save img "qrcode5.png") w4 in
  saved (calls h (generate data None) self w)
  = [(img, "qrcode5.png", raised_of written.1)]
  ∧ world_after (run h (generate data None) self w) = written.2
  ∧ @generate QR IMG data None = generate data (Some "qrcode5.png")
  ∧ (∀ h' self' w' data',
       let saved' := saved (calls h' (generate data' None) self' w') in
       saved' = [] ∨ ∃ img' raised, saved' = [(img', "qrcode5.png", raised)]).
Proof.
  intros Hs Hb Hd Hf Hk Hqr Hadd Hmake Himg written; subst written.
  split; [|split; [|split; [done|]]].
  - unfold calls, generate. rewrite ?global_qrcode, ?global_os.
    unfold mbind, prog_bind, logged. simpl.
    rewrite Hs, Hb, Hd. simpl. rewrite Hqr. simpl. rewrite Hadd. simpl.
    rewrite Hmake. simpl. rewrite Hf, Hk. simpl. rewrite Himg. simpl.
    by destruct (h _ (save img "qrcode5.png") w4) as [[e|[]] w5].
  - unfold generate. rewrite ?global_qrcode, ?global_os.
    unfold mbind, prog_bind. simpl.
    rewrite Hs, Hb, Hd. simpl. rewrite Hqr. simpl. rewrite Hadd. simpl.
    rewrite Hmake. simpl. rewrite Hf, Hk. simpl. rewrite Himg. simpl.
    by destruct (h _ (save img "qrcode5.png") w4) as [[e|[]] w5].
  - intros h' self' w' data' saved'; subst saved'. unfold calls.
    generate_cases. all: eauto.
Qed.

(** [generate] assigns no attribute. *)
Lemma generate_self_after h self w data output_file :
  self_after (run h (generate data output_file) self w) = self.
Proof.
  destruct (run_logged h (generate data output_file) self w []) as (_ & <- & _).
  by generate_cases.
Qed.

(** C6. [generate] leaves the instance as it found it, after one call and
    after two in a row; and with packages whose encoder calls are functions
    of their arguments, the images it hands to [save] are the same whatever
    the world is like when it runs (so whatever earlier calls did to it) and
    whatever the output path: they depend on the instance and the data
    alone. *)
Theorem generate_stateless :
  (∀ h self w data output_file,
     self_after (run h (generate data output_file) self w) = self)
  ∧ (∀ h self w data1 output_file1 data2 output_file2,
       let o1 := run h (generate data1 output_file1) self w in
       let o2 := run h (generate data2 output_file2) (self_after o1) (world_after o1) in
       self_after o1 = self ∧ self_after o2 = self)
  ∧ (∀ (L : library QR IMG W) self data output_file1 output_file2 w1 w2,
       (saved (calls (handler_of L) (generate data output_file1) self w1)).*1.*1
       = (saved (calls (handler_of L) (generate data output_file2) self w2)).*1.*1).
Proof.
  split; [|split].
  - apply generate_self_after.
  - intros h self w data1 output_file1 data2 output_file2 o1 o2; subst o1 o2.
    by rewrite !generate_self_after.
  - intros L self data output_file1 output_file2 w1 w2.
    unfold calls, generate. rewrite ?global_qrcode, ?global_os.
    unfold mbind, prog_bind, logged. simpl.
    repeat (case_match; simpl; try done); simplify_eq; done.
Qed.

End GenerateClaims.

(** ** [generate] against the reference model of the packages *)

Section PackagesFacts.

Variable payload_bits : string -> Z -> Z.
Variable bit_limit : error_correction_level -> Z -> Z.
Variable valid_color : pyval -> bool.

Local Abbreviation fits := (fits payload_bits bit_limit).
Local Abbreviation search_fit := (search_fit payload_bits bit_limit).



End PackagesFacts.

#[local] Arguments search_fit : simpl never.

Section PackagesClaims.

Variable payload_bits : string -> Z -> Z.
Variable bit_limit : error_correction_level -> Z -> Z.
Variable valid_color : pyval -> bool.

Local Abbreviation fits := (fits payload_bits bit_limit).
Local Abbreviation L := (packages payload_bits bit_limit valid_color).



End PackagesClaims.

(** ** The class at concrete inputs *)

(** The script's payload takes 748 bits in byte mode; version 4 at level H
    holds 288, version 8 holds 688 and version 9 holds 800. *)
Example script_data_bits :
  byte_mode_bits script_data 4 = 748
  ∧ bit_limit_H ERROR_CORRECT_H 4 = 288
  ∧ bit_limit_H ERROR_CORRECT_H 8 = 688
  ∧ bit_limit_H ERROR_CORRECT_H 9 = 800.
Proof. by vm_compute. Qed.


(** The failing input of C1: a fresh generator, a short text and a writable
    path.  The image is saved where the caller asked, and the call then
    raises [NameError] where it was to return the absolute path
    ["/home/user/out.png"]. *)
Example generate_hello :
  let o := run (handler_of reference) (generate "hello" (Some "out.png"))
             new_generator empty_world in
  result o = inl (NameError "os")
  ∧ files (world_after o) !! "out.png"
    = Some (Image 4 ERROR_CORRECT_H 10 4 ["hello"] (PyStr "black") (PyStr "white"))
  ∧ ref_abspath "out.png" (world_after o) = "/home/user/out.png".
Proof. by vm_compute. Qed.

(** Two calls in a row with different paths leave two files holding the same
    image, and the instance as it was. *)
Example generate_twice :
  let o1 := run (handler_of reference) (generate "hello" (Some "a.png"))
              new_generator empty_world in
  let o2 := run (handler_of reference) (generate "hello" (Some "b.png"))
              (self_after o1) (world_after o1) in
  files (world_after o2) !! "a.png" = files (world_after o2) !! "b.png"
  ∧ is_Some (files (world_after o2) !! "a.png")
  ∧ self_after o2 = new_generator.
Proof.
  intros o1 o2. split; [by vm_compute|]. split; [vm_compute; eauto|].
  subst o1 o2. by rewrite !generate_self_after.
Qed.

(** *** The theorems with hypotheses, at concrete inputs *)

Lemma generate_raises_after_saving_witness :
  result (run (handler_of reference) (generate "hello" (Some "out.png"))
            new_generator empty_world)
  = inl (NameError "os").
Proof.
  apply (generate_raises_after_saving (handler_of reference) new_generator
           empty_world "hello" (Some "out.png"))
    with (img := Image 4 ERROR_CORRECT_H 10 4 ["hello"] (PyStr "black") (PyStr "white"))
         (path := "out.png").
  vm_compute. apply list_elem_of_here.
Defined.


Lemma set_properties_frame_witness :
  let o := run (handler_of reference)
             (set_properties (Some (PyInt 7)) None None None None)
             new_generator empty_world in
  self_after o !! "size" = Some (PyInt 7)
  ∧ self_after o !! "border" = new_generator !! "border".
Proof.
  intros o; subst o.
  pose proof (set_properties_frame (handler_of reference) new_generator
                empty_world (Some (PyInt 7)) None None None None)
    as (Hgiven & Hleft & _).
  split.
  - apply Hgiven; [apply list_elem_of_here | discriminate].
  - apply Hleft. apply list_elem_of_further, list_elem_of_here.
Defined.

Lemma generate_constructs_with_H_witness :
  constructions (calls (handler_of reference) (generate "hello" None)
                   new_generator empty_world)
  = [(PyInt 4, ERROR_CORRECT_H, PyInt 10, PyInt 4)].
Proof.
  apply generate_constructs_with_H; by vm_compute.
Defined.

Lemma configured_invariant_witness :
  configured (self_after
    (run (handler_of reference)
       (set_properties None (Some (PyInt 2)) (Some (PyStr "red")) None (Some PyNone))
       new_generator empty_world)).
Proof.
  destruct (configured_invariant (handler_of reference) empty_world)
    as [Hinit Hset].
  apply Hset. apply Hinit.
Defined.

Lemma generate_propagates_witness :
  let w := World ∅ ["locked.png"] "/home/user" in
  result (run (handler_of reference) (generate "hello" (Some "locked.png"))
            new_generator w)
  = inl OSError.
Proof.
  intros w.
  destruct (generate_propagates (handler_of reference) new_generator w
              "hello" (Some "locked.png")) as [Hraised _].
  apply Hraised. vm_compute. apply list_elem_of_here.
Defined.

Lemma explicit_None_is_omitted_witness :
  let self : gmap string pyval := {[ "size" := PyNone ]} in
  self !! "size" = Some PyNone.
Proof.
  intros self.
  destruct (@explicit_None_is_omitted encoder image world) as [_ Hnone].
  apply (Hnone (handler_of reference) self empty_world
           (Some PyNone) None None None None "size").
  by vm_compute.
Defined.

(** * Further properties of the class *)

(** Unfolds every run of [generate] in the goal and splits on what each
    attribute lookup finds and on what each call gives back. *)
Ltac generate_runs :=
  unfold calls, generate;
  rewrite ?global_qrcode, ?global_os;
  unfold mbind, prog_bind; simpl;
  repeat first
    [ match goal with
      | H : ?m !! ?k = _ |- context [?m !! ?k] => rewrite H; simpl
      end
    | progress (unfold logged; simpl)
    | match goal with
      | H : ?h ?R ?c ?w = (_, _) |- context [?h ?R ?c ?w] => rewrite H; simpl
      end
    | match goal with
      | |- context [match ?m !! ?k with Some _ => _ | None => _ end] =>
          destruct (m !! k) eqn:?; simpl
      | |- context [let (_, _) := ?h ?R ?c ?w in _] =>
          destruct (h R c w) as [[?|?] ?] eqn:?; simpl
      end ].

Section MoreGenerate.

Context {QR IMG W : Type}.
Implicit Types (h : @handler QR IMG W) (self : gmap string pyval) (w : W).

(** X1. Whatever the packages do, [generate] calls them in one order: the
    encoder is constructed, given the data, made, rendered, and the image
    saved; a run stops somewhere along that list.  So nothing is saved before
    every encoder call has come back, and [abspath] is never called. *)
Theorem generate_call_order h self w data output_file :
  let names := call_name <$> calls h (generate data output_file) self w in
  names `prefix_of` ["QRCode"; "add_data"; "make"; "make_image"; "save"]
  ∧ "abspath" ∉ names.
Proof.
  intros names; subst names. generate_runs.
  all: split; [by eexists | by apply (bool_decide_unpack _)].
Qed.

(** X2. Once the encoder is constructed, [generate] hands the payload to
    [add_data] as it received it; once that returns, it asks [make] to fit;
    once that returns, it renders with the two colours the instance holds.
    Each of the three calls is made at most once in any run. *)
Theorem generate_arguments h self w data output_file
    version box_size border qr w1 :
  self !! "size" = Some version ->
  self !! "box_size" = Some box_size ->
  self !! "border" = Some border ->
  h _ (QRCode version ERROR_CORRECT_H box_size border) w = (inr qr, w1) ->
  let log := calls h (generate data output_file) self w in
  payloads log = [data]
  ∧ (∀ qr1 w2,
       h _ (add_data qr data) w1 = (inr qr1, w2) ->
       fit_flags log = [true]
       ∧ ∀ qr2 w3 fill_color back_color,
           h _ (make qr1 true) w2 = (inr qr2, w3) ->
           self !! "fill_color" = Some fill_color ->
           self !! "back_color" = Some back_color ->
           colors log = [(fill_color, back_color)])
  ∧ (∀ h' self' w' data' output_file',
       let log' := calls h' (generate data' output_file') self' w' in
       (payloads log' = [] ∨ payloads log' = [data'])
       ∧ (fit_flags log' = [] ∨ fit_flags log' = [true])
       ∧ (colors log' = []
          ∨ ∃ fill_color back_color,
              self' !! "fill_color" = Some fill_color
              ∧ self' !! "back_color" = Some back_color
              ∧ colors log' = [(fill_color, back_color)])).
Proof.
  intros Hs Hb Hd Hqr log; subst log. split; [|split].
  - generate_runs; done.
  - intros qr1 w2 Hadd. split; [generate_runs; done|].
    intros qr2 w3 fill_color back_color Hmake Hf Hk. generate_runs; done.
  - clear. intros h' self' w' data' output_file' log'; subst log'.
    generate_runs.
    all: repeat split; eauto 10.
Qed.

(** X3. On an instance that lacks one of the five fields, [generate] raises
    and no image is rendered or saved, whatever the packages do. *)
Theorem generate_missing_field h self w data output_file name :
  name ∈ fields -> self !! name = None ->
  let log := calls h (generate data output_file) self w in
  colors log = [] ∧ saved log = []
  ∧ ∃ e, result (run h (generate data output_file) self w) = inl e.
Proof.
  intros Hin Hnone log; subst log.
  split; [|split; [|apply generate_never_returns]].
  all: unfold fields in Hin.
  all: repeat (apply elem_of_cons in Hin as [->|Hin]);
    [..|by apply elem_of_nil in Hin].
  all: generate_runs; done.
Qed.

(** X4. When [size], [box_size] or [border] is missing, [generate] raises
    [AttributeError] for a missing one of the three before it calls into the
    packages at all, and the world is left as it was. *)
Theorem generate_missing_constructor_argument h self w data output_file name :
  name ∈ ["size"; "box_size"; "border"] -> self !! name = None ->
  let o := run h (generate data output_file) self w in
  calls h (generate data output_file) self w = []
  ∧ world_after o = w
  ∧ ∃ missing, missing ∈ ["size"; "box_size"; "border"]
      ∧ self !! missing = None
      ∧ result o = inl (AttributeError missing).
Proof.
  intros Hin Hnone o; subst o.
  repeat (apply elem_of_cons in Hin as [->|Hin]);
    [..|by apply elem_of_nil in Hin].
  all: generate_runs.
  all: repeat split; try done.
  all: eexists; split; [|split; [|reflexivity]]; [set_solver|done].
Qed.

(** X5. [generate] reads nothing of the instance but the five fields: on two
    instances that agree on them it makes the same calls, raises the same
    exception and leaves the same world. *)
Theorem generate_reads_only_fields h self1 self2 w data output_file :
  (∀ name, name ∈ fields -> self1 !! name = self2 !! name) ->
  let o1 := run h (generate data output_file) self1 w in
  let o2 := run h (generate data output_file) self2 w in
  result o1 = result o2 ∧ world_after o1 = world_after o2
  ∧ calls h (generate data output_file) self1 w
    = calls h (generate data output_file) self2 w.
Proof.
  intros Hsame o1 o2; subst o1 o2.
  assert (self1 !! "size" = self2 !! "size") as Hs by (apply Hsame; set_solver).
  assert (self1 !! "border" = self2 !! "border") as Hb by (apply Hsame; set_solver).
  assert (self1 !! "fill_color" = self2 !! "fill_color") as Hf
    by (apply Hsame; set_solver).
  assert (self1 !! "back_color" = self2 !! "back_color") as Hk
    by (apply Hsame; set_solver).
  assert (self1 !! "box_size" = self2 !! "box_size") as Hx
    by (apply Hsame; set_solver).
  clear Hsame. generate_runs; done.
Qed.

(** X6. The output path reaches [save] and nothing else.  From the same
    instance and world, with encoder calls that return, two runs with
    different paths hand the same image to [save], each for its own path
    (["qrcode5.png"] when none is given); and in any two such runs, whatever
    the packages do, the encoder is constructed, fed, made and rendered
    alike. *)
Theorem output_file_only_reaches_save h self w data output_file1 output_file2
    version box_size border fill_color back_color qr qr1 qr2 img w1 w2 w3 w4 :
  self !! "size" = Some version ->
  self !! "box_size" = Some box_size ->
  self !! "border" = Some border ->
  self !! "fill_color" = Some fill_color ->
  self !! "back_color" = Some back_color ->
  h _ (QRCode version ERROR_CORRECT_H box_size border) w = (inr qr, w1) ->
  h _ (add_data qr data) w1 = (inr qr1, w2) ->
  h _ (make qr1 true) w2 = (inr qr2, w3) ->
  h _ (make_image qr2 fill_color back_color) w3 = (inr img, w4) ->
  let path1 := default "qrcode5.png" output_file1 in
  let path2 := default "qrcode5.png" output_file2 in
  saved (calls h (generate data output_file1) self w)
  = [(img, path1, raised_of (h _ (save img path1) w4).1)]
  ∧ saved (calls h (generate data output_file2) self w)
    = [(img, path2, raised_of (h _ (save img path2) w4).1)]
  ∧ (∀ h' self' w' data',
       let log1 := calls h' (generate data' output_file1) self' w' in
       let log2 := calls h' (generate data' output_file2) self' w' in
       constructions log1 = constructions log2
       ∧ payloads log1 = payloads log2
       ∧ fit_flags log1 = fit_flags log2
       ∧ colors log1 = colors log2
       ∧ (saved log1).*1.*1 = (saved log2).*1.*1
       ∧ (saved log1).*1.*2 `sublist_of` [path1]
       ∧ (saved log2).*1.*2 `sublist_of` [path2]).
Proof.
  intros Hs Hb Hd Hf Hk Hqr Hadd Hmake Himg path1 path2; subst path1 path2.
  split; [|split].
  - generate_runs; done.
  - generate_runs; done.
  - clear. intros h' self' w' data' log1 log2; subst log1 log2. generate_runs.
    all: repeat split; try done.
    all: try apply sublist_nil_l.
Qed.

(** X15. With packages whose encoder calls leave the world alone, [save] is
    the only way [generate] changes it: either no image reaches [save] and
    the world is as it was, or one image does, for the output path, and the
    world is what that [save] made of it. *)
Theorem generate_world_only_by_save (L : library QR IMG W) self w data output_file :
  let o := run (handler_of L) (generate data output_file) self w in
  let log := calls (handler_of L) (generate data output_file) self w in
  let path := default "qrcode5.png" output_file in
  (saved log = [] ∧ world_after o = w)
  ∨ ∃ img, saved log = [(img, path, raised_of (lib_save L img path w).1)]
      ∧ world_after o = (lib_save L img path w).2.
Proof.
  intros o log path; subst o log path.
  unfold calls, generate. rewrite ?global_qrcode, ?global_os.
  unfold mbind, prog_bind, logged. simpl.
  repeat (case_match; simpl; simplify_eq; eauto).
  all: match goal with
       | H : lib_save _ ?i _ _ = _ |- _ => right; exists i; by rewrite H
       end.
Qed.

End MoreGenerate.

Section MoreConfiguration.

Context {QR IMG W : Type}.
Implicit Types (h : @handler QR IMG W) (self : gmap string pyval) (w : W).

(** The fields after [__init__], whatever the instance held before. *)
Lemma lookup_init h self w :
  let self' := self_after (run h __init__ self w) in
  self' !! "size" = Some (PyInt 4) ∧ self' !! "border" = Some (PyInt 4)
  ∧ self' !! "fill_color" = Some (PyStr "black")
  ∧ self' !! "back_color" = Some (PyStr "white")
  ∧ self' !! "box_size" = Some (PyInt 10).
Proof.
  simpl. repeat split.
  all: repeat (rewrite lookup_insert_ne by done); by rewrite lookup_insert_eq.
Qed.

(** X14. [__init__] on an instance in any state sets the five fields to
    their defaults and leaves every other attribute as it was; it returns and
    does not touch the world. *)
Theorem init_resets h self w :
  let o := run h __init__ self w in
  self_after o !! "size" = Some (PyInt 4)
  ∧ self_after o !! "border" = Some (PyInt 4)
  ∧ self_after o !! "fill_color" = Some (PyStr "black")
  ∧ self_after o !! "back_color" = Some (PyStr "white")
  ∧ self_after o !! "box_size" = Some (PyInt 10)
  ∧ (∀ name, name ∉ fields -> self_after o !! name = self !! name)
  ∧ result o = inr tt ∧ world_after o = w.
Proof.
  intros o; subst o.
  destruct (lookup_init h self w) as (Hs & Hb & Hf & Hk & Hx).
  do 5 (split; [done|]). split; [|done].
  intros name Hin. simpl. unfold fields in Hin.
  repeat (rewrite lookup_insert_ne; [|intros <-; apply Hin; set_solver]).
  done.
Qed.

(** Two keyword arguments for one field, one after the other. *)
Lemma override_override name first second self :
  override name second (override name first self)
  = override name (then_arg first second) self.
Proof.
  destruct second as [[]|], first as [[]|]; simpl; try done;
    by rewrite insert_insert_eq.
Qed.

Lemma override_comm name1 name2 arg1 arg2 self :
  name1 ≠ name2 ->
  override name1 arg1 (override name2 arg2 self)
  = override name2 arg2 (override name1 arg1 self).
Proof.
  intros Hne. destruct arg1 as [[]|], arg2 as [[]|]; simpl; try done;
    by apply insert_insert_ne.
Qed.

Lemma override_not_given name arg self :
  given arg = false -> override name arg self = self.
Proof. by destruct arg as [[]|]. Qed.


(** The instance after two calls of [set_properties] in a row. *)
Lemma set_properties_twice h self w w'
    size1 border1 fill_color1 back_color1 box_size1
    size2 border2 fill_color2 back_color2 box_size2 :
  self_after
    (run h (set_properties size2 border2 fill_color2 back_color2 box_size2)
       (self_after
          (run h (set_properties size1 border1 fill_color1 back_color1 box_size1)
             self w)) w')
  = override "box_size" (then_arg box_size1 box_size2)
      (override "back_color" (then_arg back_color1 back_color2)
        (override "fill_color" (then_arg fill_color1 fill_color2)
          (override "border" (then_arg border1 border2)
            (override "size" (then_arg size1 size2) self)))).
Proof.
  rewrite !run_set_properties. simpl.
  rewrite <- !override_override.
  rewrite (override_comm "size" "box_size"), (override_comm "size" "back_color"),
    (override_comm "size" "fill_color"), (override_comm "size" "border") by done.
  rewrite (override_comm "border" "box_size"), (override_comm "border" "back_color"),
    (override_comm "border" "fill_color") by done.
  rewrite (override_comm "fill_color" "box_size"),
    (override_comm "fill_color" "back_color") by done.
  by rewrite (override_comm "back_color" "box_size").
Qed.

(** X7. Two calls of [set_properties] in a row leave the instance as one
    call does whose arguments are, field by field, the second call's where it
    gives one and the first call's otherwise. *)
Theorem set_properties_compose h self w w' w''
    size1 border1 fill_color1 back_color1 box_size1
    size2 border2 fill_color2 back_color2 box_size2 :
  self_after
    (run h (set_properties size2 border2 fill_color2 back_color2 box_size2)
       (self_after
          (run h (set_properties size1 border1 fill_color1 back_color1 box_size1)
             self w)) w')
  = self_after
      (run h (set_properties (then_arg size1 size2) (then_arg border1 border2)
                (then_arg fill_color1 fill_color2) (then_arg back_color1 back_color2)
                (then_arg box_size1 box_size2)) self w'').
Proof. by rewrite set_properties_twice, run_set_properties. Qed.

(** X8. Calling [set_properties] a second time with the same arguments
    changes nothing. *)
Theorem set_properties_idempotent h self w w' size border fill_color back_color box_size :
  let p := set_properties size border fill_color back_color box_size in
  self_after (run h p (self_after (run h p self w)) w') = self_after (run h p self w).
Proof.
  intros p; subst p. rewrite set_properties_twice, run_set_properties. simpl.
  by destruct size as [[]|], border as [[]|], fill_color as [[]|],
    back_color as [[]|], box_size as [[]|].
Qed.

(** X9. [set_properties] with every argument left out or [None] returns and
    leaves the instance and the world exactly as they were. *)
Theorem set_properties_nothing_given h self w size border fill_color back_color box_size :
  given size = false -> given border = false -> given fill_color = false ->
  given back_color = false -> given box_size = false ->
  run h (set_properties size border fill_color back_color box_size) self w
  = Outcome (inr tt) self w.
Proof.
  intros Hs Hb Hf Hk Hx. rewrite run_set_properties.
  by rewrite !override_not_given.
Qed.

(** X10. Two calls of [set_properties] that give no field in common can be
    made in either order. *)
Theorem set_properties_commute h self w1 w2 w3 w4
    size1 border1 fill_color1 back_color1 box_size1
    size2 border2 fill_color2 back_color2 box_size2 :
  given size1 && given size2 = false ->
  given border1 && given border2 = false ->
  given fill_color1 && given fill_color2 = false ->
  given back_color1 && given back_color2 = false ->
  given box_size1 && given box_size2 = false ->
  let p1 := set_properties size1 border1 fill_color1 back_color1 box_size1 in
  let p2 := set_properties size2 border2 fill_color2 back_color2 box_size2 in
  self_after (run h p2 (self_after (run h p1 self w1)) w2)
  = self_after (run h p1 (self_after (run h p2 self w3)) w4).
Proof.
  intros Hs Hb Hf Hk Hx p1 p2; subst p1 p2.
  rewrite !set_properties_twice.
  rewrite <- !override_override.
  assert (∀ name a b m, given a && given b = false ->
            override name b (override name a m) = override name a (override name b m))
    as Hswap.
  { intros name a b m Hab.
    destruct a as [[]|], b as [[]|]; simpl in *; done. }
  by rewrite (Hswap "size"), (Hswap "border"), (Hswap "fill_color"),
    (Hswap "back_color"), (Hswap "box_size").
Qed.

(** X11. After [__init__], whatever the instance held before, [generate]
    constructs the encoder with version 4, level H, box size 10 and border 4,
    and renders, if it gets that far, in black on white. *)
Theorem generate_after_init h h' self w w' data output_file :
  let generator := self_after (run h __init__ self w) in
  let log := calls h' (generate data output_file) generator w' in
  constructions log = [(PyInt 4, ERROR_CORRECT_H, PyInt 10, PyInt 4)]
  ∧ (colors log = [] ∨ colors log = [(PyStr "black", PyStr "white")]).
Proof.
  intros generator log; subst log.
  destruct (lookup_init h self w) as (Hs & Hb & Hf & Hk & Hx).
  fold generator in Hs, Hb, Hf, Hk, Hx. clearbody generator.
  generate_runs; eauto.
Qed.


End MoreConfiguration.

Section Script.

Context {QR IMG W : Type}.
Implicit Types (h : @handler QR IMG W) (w : W).

(** X13. Run as a script, the module prints nothing and ends in an exception
    nobody catches, whatever the packages do.  It constructs the encoder with
    the defaults; and when the image has been saved, it has been saved to
    ["qrcode5.png"] with the script's payload, and the exception is the
    [NameError] for [os]. *)
Theorem main_prints_nothing h w :
  let r := main (logged h) "__main__" (w, []) in
  stdout r = []
  ∧ (∃ e, uncaught r = Some e)
  ∧ constructions (script_world r).2
    = [(PyInt 4, ERROR_CORRECT_H, PyInt 10, PyInt 4)]
  ∧ (∀ img path, (img, path, None) ∈ saved (script_world r).2 ->
       path = "qrcode5.png" ∧ uncaught r = Some (NameError "os")
       ∧ payloads (script_world r).2 = [script_data]).
Proof.
  unfold main. rewrite bool_decide_eq_true_2 by done.
  destruct (lookup_init (logged h) ∅ (w, [])) as (Hs & Hb & Hf & Hk & Hx).
  set (generator := self_after (run (logged h) __init__ ∅ (w, []))) in *.
  assert (run (logged h) __init__ ∅ (w, [])
          = Outcome (inr tt) generator (w, [])) as -> by reflexivity.
  clearbody generator. cbv zeta. generate_runs.
  all: split; [done|]; split; [eauto|]; split; [done|].
  all: intros img path Hin; try (by apply elem_of_nil in Hin).
  all: by apply list_elem_of_singleton in Hin; simplify_eq.
Qed.

(** Imported under any other name, the module runs none of it. *)
Theorem main_not_run_on_import h w name :
  name ≠ "__main__" -> main h name w = ScriptResult None [] w.
Proof. intros Hne. unfold main. by rewrite bool_decide_eq_false_2. Qed.

End Script.

(** ** These properties at concrete inputs *)

Lemma generate_missing_field_witness :
  let self := delete "fill_color" new_generator in
  saved (calls (handler_of reference) (generate "hello" None) self empty_world) = [].
Proof.
  intros self.
  destruct (generate_missing_field (handler_of reference) self empty_world
              "hello" None "fill_color") as (_ & Hsaved & _).
  - by apply (bool_decide_unpack _).
  - by vm_compute.
  - exact Hsaved.
Defined.

Lemma generate_missing_constructor_argument_witness :
  calls (handler_of reference) (generate "hello" None) ∅ empty_world = [].
Proof.
  destruct (generate_missing_constructor_argument (handler_of reference) ∅
              empty_world "hello" None "size") as (Hcalls & _).
  - by apply (bool_decide_unpack _).
  - by vm_compute.
  - exact Hcalls.
Defined.

Lemma generate_reads_only_fields_witness :
  let self := <["label" := PyStr "kitchen"]> new_generator in
  result (run (handler_of reference) (generate "hello" None) new_generator empty_world)
  = result (run (handler_of reference) (generate "hello" None) self empty_world).
Proof.
  intros self.
  destruct (generate_reads_only_fields (handler_of reference) new_generator self
              empty_world "hello" None) as (Hresult & _).
  - intros name Hin. unfold fields in Hin.
    repeat (apply elem_of_cons in Hin as [->|Hin]);
      [..|by apply elem_of_nil in Hin].
    all: by vm_compute.
  - exact Hresult.
Defined.

Lemma set_properties_nothing_given_witness :
  run (handler_of reference) (set_properties (Some PyNone) None None (Some PyNone) None)
    new_generator empty_world
  = Outcome (inr tt) new_generator empty_world.
Proof. by apply set_properties_nothing_given. Defined.

Lemma set_properties_commute_witness :
  let p1 := @set_properties encoder image (Some (PyInt 7)) None None None None in
  let p2 := @set_properties encoder image None (Some (PyInt 2)) None None
              (Some (PyInt 20)) in
  self_after (run (handler_of reference) p2
                (self_after (run (handler_of reference) p1 new_generator empty_world))
                empty_world)
  = self_after (run (handler_of reference) p1
                  (self_after (run (handler_of reference) p2 new_generator empty_world))
                  empty_world).
Proof. by apply set_properties_commute. Defined.


Lemma main_prints_nothing_witness :
  uncaught (main (logged (handler_of reference)) "__main__" (empty_world, []))
  = Some (NameError "os").
Proof.
  destruct (main_prints_nothing (handler_of reference) empty_world)
    as (_ & _ & _ & Hsaved).
  apply (Hsaved (Image 9 ERROR_CORRECT_H 10 4 [script_data]
                   (PyStr "black") (PyStr "white")) "qrcode5.png").
  vm_compute. apply list_elem_of_here.
Defined.

Lemma init_resets_witness :
  let self : gmap string pyval :=
    {[ "size" := PyInt 40; "label" := PyStr "kitchen" ]} in
  let o := run (handler_of reference) __init__ self empty_world in
  self_after o !! "size" = Some (PyInt 4)
  ∧ self_after o !! "label" = self !! "label".
Proof.
  intros self o; subst o.
  destruct (init_resets (handler_of reference) self empty_world)
    as (Hsize & _ & _ & _ & _ & Hkept & _).
  split; [exact Hsize|].
  apply Hkept. by apply (bool_decide_unpack _).
Defined.

Lemma generate_default_output_file_witness :
  saved (calls (handler_of reference) (generate "hello" None)
           new_generator empty_world)
  = [(Image 4 ERROR_CORRECT_H 10 4 ["hello"] (PyStr "black") (PyStr "white"),
      "qrcode5.png", None)].
Proof.
  destruct (generate_default_output_file (handler_of reference) new_generator
              empty_world "hello"
              (PyInt 4) (PyInt 10) (PyInt 4) (PyStr "black") (PyStr "white")
              (Encoder (Some 4) ERROR_CORRECT_H 10 4 [] false)
              (Encoder (Some 4) ERROR_CORRECT_H 10 4 ["hello"] false)
              (Encoder (Some 4) ERROR_CORRECT_H 10 4 ["hello"] true)
              (Image 4 ERROR_CORRECT_H 10 4 ["hello"] (PyStr "black") (PyStr "white"))
              empty_world empty_world empty_world empty_world)
    as (Hsaved & _); [by vm_compute..|].
  exact Hsaved.
Defined.

Lemma generate_arguments_witness :
  let log := calls (handler_of reference) (generate "hello" (Some "out.png"))
               new_generator empty_world in
  payloads log = ["hello"] ∧ fit_flags log = [true]
  ∧ colors log = [(PyStr "black", PyStr "white")].
Proof.
  intros log; subst log.
  destruct (generate_arguments (handler_of reference) new_generator empty_world
              "hello" (Some "out.png") (PyInt 4) (PyInt 10) (PyInt 4)
              (Encoder (Some 4) ERROR_CORRECT_H 10 4 [] false) empty_world)
    as (Hpayloads & Hrest & _); [by vm_compute..|].
  destruct (Hrest (Encoder (Some 4) ERROR_CORRECT_H 10 4 ["hello"] false)
              empty_world) as (Hfit & Hcolors); [by vm_compute|].
  split; [exact Hpayloads|]. split; [exact Hfit|].
  apply (Hcolors (Encoder (Some 4) ERROR_CORRECT_H 10 4 ["hello"] true)
           empty_world); by vm_compute.
Defined.

Lemma output_file_only_reaches_save_witness :
  let img := Image 4 ERROR_CORRECT_H 10 4 ["hello"] (PyStr "black") (PyStr "white") in
  saved (calls (handler_of reference) (generate "hello" (Some "a.png"))
           new_generator empty_world)
  = [(img, "a.png", None)]
  ∧ saved (calls (handler_of reference) (generate "hello" None)
             new_generator empty_world)
    = [(img, "qrcode5.png", None)].
Proof.
  intros img.
  destruct (output_file_only_reaches_save (handler_of reference) new_generator
              empty_world "hello" (Some "a.png") None
              (PyInt 4) (PyInt 10) (PyInt 4) (PyStr "black") (PyStr "white")
              (Encoder (Some 4) ERROR_CORRECT_H 10 4 [] false)
              (Encoder (Some 4) ERROR_CORRECT_H 10 4 ["hello"] false)
              (Encoder (Some 4) ERROR_CORRECT_H 10 4 ["hello"] true)
              img empty_world empty_world empty_world empty_world)
    as (Hsaved1 & Hsaved2 & _); [by vm_compute..|].
  split; [exact Hsaved1 | exact Hsaved2].
Defined.
